(** * The JNI binding header of [ffx.numerics.fft.CLFFT]

    The repository slice is one machine-generated C header,
    [ffx_numerics_fft_CLFFT.h].  It has no function bodies: its whole content
    is a list of prototypes wrapped in an include guard and an
    [extern "C"] block.  The development below keeps the header as the text
    it is, reads it with a small lexer and parser for the fragment of C the
    header is written in, resolves the preprocessor conditionals, and states
    the interface properties on what comes out. *)

From Stdlib Require Import String Ascii List Bool Arith ZArith Lia.
Import ListNotations.
Open Scope string_scope.

(** ** The header text *)

Module Source.

Definition dquote : string := String "034"%char EmptyString.
Definition newline : string := String "010"%char EmptyString.

(** The lines of [ffx_numerics_fft_CLFFT.h], in order.  The last line has no
    line terminator in the file. *)
Definition header_lines : list string :=
  [ "/* DO NOT EDIT THIS FILE - it is machine generated */"
  ; "#include <jni.h>"
  ; "/* Header for class ffx_numerics_fft_CLFFT */"
  ; ""
  ; "#ifndef _Included_ffx_numerics_fft_CLFFT"
  ; "#define _Included_ffx_numerics_fft_CLFFT"
  ; "#ifdef __cplusplus"
  ; "extern " ++ dquote ++ "C" ++ dquote ++ " {"
  ; "#endif"
  ; "/*"
  ; " * Class:     ffx_numerics_fft_CLFFT"
  ; " * Method:    do_clfftSetup"
  ; " * Signature: ()J"
  ; " */"
  ; "JNIEXPORT jlong JNICALL Java_ffx_numerics_fft_CLFFT_do_1clfftSetup"
  ; "  (JNIEnv *, jclass);"
  ; ""
  ; "/*"
  ; " * Class:     ffx_numerics_fft_CLFFT"
  ; " * Method:    do_clfftCreateDefaultPlan"
  ; " * Signature: (JJIIII)J"
  ; " */"
  ; "JNIEXPORT jlong JNICALL Java_ffx_numerics_fft_CLFFT_do_1clfftCreateDefaultPlan"
  ; "  (JNIEnv *, jclass, jlong, jlong, jint, jint, jint, jint);"
  ; ""
  ; "/*"
  ; " * Class:     ffx_numerics_fft_CLFFT"
  ; " * Method:    do_clfftSetPlanPrecision"
  ; " * Signature: (JI)I"
  ; " */"
  ; "JNIEXPORT jint JNICALL Java_ffx_numerics_fft_CLFFT_do_1clfftSetPlanPrecision"
  ; "  (JNIEnv *, jclass, jlong, jint);"
  ; ""
  ; "/*"
  ; " * Class:     ffx_numerics_fft_CLFFT"
  ; " * Method:    do_clfftSetLayout"
  ; " * Signature: (JII)I"
  ; " */"
  ; "JNIEXPORT jint JNICALL Java_ffx_numerics_fft_CLFFT_do_1clfftSetLayout"
  ; "  (JNIEnv *, jclass, jlong, jint, jint);"
  ; ""
  ; "/*"
  ; " * Class:     ffx_numerics_fft_CLFFT"
  ; " * Method:    do_clfftExecuteTransform"
  ; " * Signature: (JIJJJ)I"
  ; " */"
  ; "JNIEXPORT jint JNICALL Java_ffx_numerics_fft_CLFFT_do_1clfftExecuteTransform"
  ; "  (JNIEnv *, jclass, jlong, jint, jlong, jlong, jlong);"
  ; ""
  ; "/*"
  ; " * Class:     ffx_numerics_fft_CLFFT"
  ; " * Method:    do_clfftDestroyPlan"
  ; " * Signature: (J)I"
  ; " */"
  ; "JNIEXPORT jint JNICALL Java_ffx_numerics_fft_CLFFT_do_1clfftDestroyPlan"
  ; "  (JNIEnv *, jclass, jlong);"
  ; ""
  ; "#ifdef __cplusplus"
  ; "}"
  ; "#endif"
  ; "#endif"
  ].

Definition header_text : string := String.concat newline header_lines.

End Source.

(** ** Lexing

    The header uses block comments, preprocessor lines, identifiers, one
    string literal and a handful of punctuation marks.  The lexer is a
    one-character-at-a-time automaton, so it is total and structurally
    recursive on the text. *)

Module Lexer.

Inductive token : Type :=
| TComment (text : string)      (* the inside of a block comment *)
| TDirective (text : string)    (* a preprocessor line, without its # *)
| TIdent (name : string)
| TString (text : string)
| TPunct (c : ascii).

Inductive mode : Type :=
| LCode
| LSlash
| LIdent (acc : string)
| LComment (acc : string)
| LCommentStar (acc : string)
| LDirective (acc : string)
| LString (acc : string).

Definition snoc (s : string) (c : ascii) : string := s ++ String c EmptyString.

Definition between (lo hi : nat) (c : ascii) : bool :=
  let n := nat_of_ascii c in Nat.leb lo n && Nat.leb n hi.

Definition is_ident_char (c : ascii) : bool :=
  between 97 122 c || between 65 90 c || between 48 57 c || Ascii.eqb c "_".

Definition is_space (c : ascii) : bool :=
  Ascii.eqb c " " || Ascii.eqb c "010" || Ascii.eqb c "009" || Ascii.eqb c "013".

Definition is_punct (c : ascii) : bool :=
  existsb (Ascii.eqb c) ["("; ")"; ","; ";"; "*"; "{"; "}"]%char.

(** One character read in code position; [toks] is the reversed output. *)
Definition lex_code (toks : list token) (c : ascii) : option (mode * list token) :=
  if is_space c then Some (LCode, toks)
  else if Ascii.eqb c "/" then Some (LSlash, toks)
  else if Ascii.eqb c "#" then Some (LDirective EmptyString, toks)
  else if Ascii.eqb c "034" then Some (LString EmptyString, toks)
  else if is_ident_char c then Some (LIdent (String c EmptyString), toks)
  else if is_punct c then Some (LCode, TPunct c :: toks)
  else None.

Definition lex_step (st : mode * list token) (c : ascii) : option (mode * list token) :=
  let '(m, toks) := st in
  match m with
  | LCode => lex_code toks c
  | LSlash => if Ascii.eqb c "*" then Some (LComment EmptyString, toks) else None
  | LIdent acc =>
      if is_ident_char c then Some (LIdent (snoc acc c), toks)
      else lex_code (TIdent acc :: toks) c
  | LComment acc =>
      if Ascii.eqb c "*" then Some (LCommentStar acc, toks)
      else Some (LComment (snoc acc c), toks)
  | LCommentStar acc =>
      if Ascii.eqb c "/" then Some (LCode, TComment acc :: toks)
      else if Ascii.eqb c "*" then Some (LCommentStar (snoc acc "*"), toks)
      else Some (LComment (snoc (snoc acc "*") c), toks)
  | LDirective acc =>
      if Ascii.eqb c "010" then Some (LCode, TDirective acc :: toks)
      else Some (LDirective (snoc acc c), toks)
  | LString acc =>
      if Ascii.eqb c "034" then Some (LCode, TString acc :: toks)
      else if Ascii.eqb c "010" then None
      else Some (LString (snoc acc c), toks)
  end.

Fixpoint lex_from (st : mode * list token) (s : string) : option (mode * list token) :=
  match s with
  | EmptyString => Some st
  | String c rest =>
      match lex_step st c with
      | Some st' => lex_from st' rest
      | None => None
      end
  end.

(** At the end of the text an identifier or a preprocessor line may still be
    open (the header ends in [#endif] with no line terminator); an open
    comment or string literal is an error. *)
Definition lex_finish (st : mode * list token) : option (list token) :=
  let '(m, toks) := st in
  match m with
  | LCode => Some (rev toks)
  | LIdent acc => Some (rev (TIdent acc :: toks))
  | LDirective acc => Some (rev (TDirective acc :: toks))
  | LSlash | LComment _ | LCommentStar _ | LString _ => None
  end.

Definition lex (s : string) : option (list token) :=
  match lex_from (LCode, []) s with
  | Some st => lex_finish st
  | None => None
  end.

End Lexer.

(** ** Parsing

    The grammar is the one the binding generator writes: comments,
    preprocessor lines, the opening and closing of an [extern "C"] block and
    functions introduced by [JNIEXPORT <type> JNICALL <name> (<types>)].
    A function followed by [;] is a declaration; one followed by a braced
    body is a definition, and the parser keeps the two apart. *)

Module Parser.
Import Lexer.

Record param : Type := { param_type : string; param_stars : nat }.

Record prototype : Type :=
  { proto_ret : string; proto_name : string; proto_params : list param }.

Inductive directive : Type :=
| DInclude (file : string)
| DIfdef (macro : string)
| DIfndef (macro : string)
| DDefine (macro : string)
| DEndif.

Inductive item : Type :=
| IComment (text : string)
| IDirective (d : directive)
| IExternC                                   (* extern "C" { *)
| IClose                                     (* } *)
| IDecl (p : prototype)                      (* prototype ; *)
| IDefn (p : prototype) (body : list token). (* prototype { body } *)

Fixpoint skip_spaces (s : string) : string :=
  match s with
  | String c rest => if is_space c then skip_spaces rest else s
  | EmptyString => s
  end.

Fixpoint split_word (s : string) : string * string :=
  match s with
  | EmptyString => (EmptyString, EmptyString)
  | String c rest =>
      if is_space c then (EmptyString, rest)
      else let '(w, r) := split_word rest in (String c w, r)
  end.

Definition parse_directive (text : string) : option directive :=
  let '(kw, rest) := split_word (skip_spaces text) in
  let arg := fst (split_word (skip_spaces rest)) in
  if kw =? "include" then Some (DInclude arg)
  else if kw =? "ifdef" then Some (DIfdef arg)
  else if kw =? "ifndef" then Some (DIfndef arg)
  else if kw =? "define" then Some (DDefine arg)
  else if kw =? "endif" then Some DEndif
  else None.

Inductive pstate : Type :=
| PTop
| PExtern                                   (* extern *)
| PExternC                                  (* extern "C" *)
| PExport                                   (* JNIEXPORT *)
| PRet (ret : string)                       (* JNIEXPORT t *)
| PCall (ret : string)                      (* JNIEXPORT t JNICALL *)
| PName (ret name : string)                 (* ... name *)
| PParam (ret name : string) (ps : list param)
| PStars (ret name : string) (ps : list param) (ty : string) (stars : nat)
| PClosed (p : prototype)                   (* ... ) *)
| PBody (p : prototype) (depth : nat) (body : list token).

Definition is_keyword (s : string) : bool :=
  existsb (String.eqb s) ["extern"; "JNIEXPORT"; "JNICALL"].

Definition add_param (ps : list param) (ty : string) (stars : nat) : list param :=
  ps ++ [ {| param_type := ty; param_stars := stars |} ].

Definition punct_is (c : ascii) (d : ascii) : bool := Ascii.eqb c d.

(** One token read; [items] is the reversed output. *)
Definition parse_step (st : pstate * list item) (t : token) : option (pstate * list item) :=
  let '(ps, items) := st in
  match ps, t with
  | PTop, TComment c => Some (PTop, IComment c :: items)
  | PTop, TDirective d =>
      match parse_directive d with
      | Some d' => Some (PTop, IDirective d' :: items)
      | None => None
      end
  | PTop, TIdent w =>
      if w =? "extern" then Some (PExtern, items)
      else if w =? "JNIEXPORT" then Some (PExport, items)
      else None
  | PTop, TPunct c => if punct_is c "}" then Some (PTop, IClose :: items) else None
  | PExtern, TString l => if l =? "C" then Some (PExternC, items) else None
  | PExternC, TPunct c => if punct_is c "{" then Some (PTop, IExternC :: items) else None
  | PExport, TIdent ty => if is_keyword ty then None else Some (PRet ty, items)
  | PRet ty, TIdent w => if w =? "JNICALL" then Some (PCall ty, items) else None
  | PCall ty, TIdent n => if is_keyword n then None else Some (PName ty n, items)
  | PName ty n, TPunct c => if punct_is c "(" then Some (PParam ty n [], items) else None
  | PParam ty n pl, TIdent pty =>
      if is_keyword pty then None else Some (PStars ty n pl pty 0, items)
  | PParam ty n [], TPunct c =>
      if punct_is c ")"
      then Some (PClosed {| proto_ret := ty; proto_name := n; proto_params := [] |}, items)
      else None
  | PStars ty n pl pty k, TPunct c =>
      if punct_is c "*" then Some (PStars ty n pl pty (S k), items)
      else if punct_is c "," then Some (PParam ty n (add_param pl pty k), items)
      else if punct_is c ")"
      then Some (PClosed {| proto_ret := ty; proto_name := n;
                            proto_params := add_param pl pty k |}, items)
      else None
  | PClosed p, TPunct c =>
      if punct_is c ";" then Some (PTop, IDecl p :: items)
      else if punct_is c "{" then Some (PBody p 0 [], items)
      else None
  | PBody p depth body, TPunct c =>
      if punct_is c "{" then Some (PBody p (S depth) (t :: body), items)
      else if punct_is c "}" then
        match depth with
        | O => Some (PTop, IDefn p (rev body) :: items)
        | S d => Some (PBody p d (t :: body), items)
        end
      else Some (PBody p depth (t :: body), items)
  | PBody p depth body, _ => Some (PBody p depth (t :: body), items)
  | _, _ => None
  end.

Fixpoint parse_from (st : pstate * list item) (ts : list token) : option (pstate * list item) :=
  match ts with
  | [] => Some st
  | t :: rest =>
      match parse_step st t with
      | Some st' => parse_from st' rest
      | None => None
      end
  end.

Definition parse (ts : list token) : option (list item) :=
  match parse_from (PTop, []) ts with
  | Some (PTop, items) => Some (rev items)
  | _ => None
  end.

Definition read (text : string) : option (list item) :=
  match lex text with
  | Some ts => parse ts
  | None => None
  end.

End Parser.

(** ** Preprocessing

    The header has no macro bodies, only conditionals on whether a macro is
    defined: the include guard and the two [#ifdef __cplusplus] brackets. *)

Module Cpp.
Import Parser.

Inductive language : Type := LangC | LangCxx.

(** What the compiler defines before reading the file, as far as the header
    asks. *)
Definition predefined (lang : language) : list string :=
  match lang with
  | LangC => []
  | LangCxx => ["__cplusplus"]
  end.

Definition defined (macros : list string) (m : string) : bool :=
  existsb (String.eqb m) macros.

Definition active (conds : list bool) : bool := forallb (fun b => b) conds.

(** [conds] is the stack of open conditionals, innermost first.  The result
    is the items that survive and the macros defined at the end.  An
    [#endif] with nothing open, or a conditional left open, is an error.
    [#include <jni.h>] is dropped: that file is not part of the repository. *)
Fixpoint preprocess (macros : list string) (conds : list bool) (items : list item)
  : option (list item * list string) :=
  match items with
  | [] => match conds with [] => Some ([], macros) | _ :: _ => None end
  | IDirective d :: rest =>
      match d with
      | DInclude _ => preprocess macros conds rest
      | DIfdef m => preprocess macros (defined macros m :: conds) rest
      | DIfndef m => preprocess macros (negb (defined macros m) :: conds) rest
      | DDefine m =>
          preprocess (if active conds then m :: macros else macros) conds rest
      | DEndif =>
          match conds with
          | [] => None
          | _ :: outer => preprocess macros outer rest
          end
      end
  | i :: rest =>
      match preprocess macros conds rest with
      | Some (out, macros') => Some (if active conds then i :: out else out, macros')
      | None => None
      end
  end.

End Cpp.

(** ** Declarations and their linkage *)

Module Unit.
Import Parser Cpp.

Inductive linkage : Type := CLinkage | CxxLinkage.

Record entry : Type :=
  { entry_proto : prototype
  ; entry_linkage : linkage
  ; entry_doc : option string        (* the comment right before it *)
  ; entry_body : option (list Lexer.token) }.

Definition linkage_at (lang : language) (depth : nat) : linkage :=
  match lang, depth with
  | LangC, _ => CLinkage
  | LangCxx, O => CxxLinkage
  | LangCxx, S _ => CLinkage
  end.

(** [depth] counts the [extern "C"] blocks that are open; [doc] is the
    comment just read, if the previous item was one.  A linkage block is not
    C syntax, and a closing brace needs an open block. *)
Fixpoint declare (lang : language) (depth : nat) (doc : option string)
    (items : list item) : option (list entry) :=
  match items with
  | [] => match depth with O => Some [] | S _ => None end
  | IComment c :: rest => declare lang depth (Some c) rest
  | IDirective _ :: rest => declare lang depth None rest
  | IExternC :: rest =>
      match lang with
      | LangC => None
      | LangCxx => declare lang (S depth) None rest
      end
  | IClose :: rest =>
      match depth with
      | O => None
      | S d => declare lang d None rest
      end
  | IDecl p :: rest =>
      option_map
        (cons {| entry_proto := p; entry_linkage := linkage_at lang depth;
                 entry_doc := doc; entry_body := None |})
        (declare lang depth None rest)
  | IDefn p body :: rest =>
      option_map
        (cons {| entry_proto := p; entry_linkage := linkage_at lang depth;
                 entry_doc := doc; entry_body := Some body |})
        (declare lang depth None rest)
  end.

(** The definitions and the declarations among the items read. *)
Fixpoint definitions (items : list item) : list prototype :=
  match items with
  | [] => []
  | IDefn p _ :: rest => p :: definitions rest
  | _ :: rest => definitions rest
  end.

Fixpoint declarations (items : list item) : list prototype :=
  match items with
  | [] => []
  | IDecl p :: rest => p :: declarations rest
  | _ :: rest => declarations rest
  end.

(** A file compiled on its own, in C or in C++. *)
Definition compile (lang : language) (text : string) : option (list entry) :=
  match read text with
  | Some items =>
      match preprocess (predefined lang) [] items with
      | Some (live, _) => declare lang 0 None live
      | None => None
      end
  | None => None
  end.

Definition entries_or_nil (r : option (list entry)) : list entry :=
  match r with Some es => es | None => [] end.

End Unit.

(** ** The JNI reading of a prototype *)

Module JNI.
Import Parser Unit.

(** The JNI types the header mentions, [jobject] (what an instance method
    would receive in place of [jclass]) and [void]. *)
Inductive jtype : Type := JEnvPtr | JClass | JObject | JInt | JLong | JVoid.

Definition jtype_eqb (a b : jtype) : bool :=
  match a, b with
  | JEnvPtr, JEnvPtr | JClass, JClass | JObject, JObject
  | JInt, JInt | JLong, JLong | JVoid, JVoid => true
  | _, _ => false
  end.

Definition of_c (ty : string) (stars : nat) : option jtype :=
  match stars with
  | 0 =>
      if ty =? "jint" then Some JInt
      else if ty =? "jlong" then Some JLong
      else if ty =? "jclass" then Some JClass
      else if ty =? "jobject" then Some JObject
      else if ty =? "void" then Some JVoid
      else None
  | 1 => if ty =? "JNIEnv" then Some JEnvPtr else None
  | _ => None
  end.

Definition of_param (p : param) : option jtype :=
  of_c (param_type p) (param_stars p).

(** Modelled from the spec: [jni.h], which the header includes and which
    defines [jint] and [jlong], is not part of the repository.  The widths
    follow the specification's wording: handles travel as 64-bit integers
    ([jlong]) and option codes as 32-bit integers ([jint]). *)
Definition bits (t : jtype) : option nat :=
  match t with
  | JInt => Some 32
  | JLong => Some 64
  | JEnvPtr | JClass | JObject | JVoid => None
  end.

Fixpoint all_some {A : Type} (l : list (option A)) : option (list A) :=
  match l with
  | [] => Some []
  | Some a :: rest => option_map (cons a) (all_some rest)
  | None :: _ => None
  end.

(** A native method receives the environment pointer, then the class (for a
    static method) or the instance, then the arguments of the Java method. *)
Record signature : Type :=
  { sig_env : jtype; sig_self : jtype; sig_args : list jtype; sig_ret : jtype }.

Definition signature_of (p : prototype) : option signature :=
  match all_some (map of_param (proto_params p)), of_c (proto_ret p) 0 with
  | Some (env :: self :: args), Some r =>
      Some {| sig_env := env; sig_self := self; sig_args := args; sig_ret := r |}
  | _, _ => None
  end.

(** *** The generated comment: Class, Method, Signature *)

Fixpoint find_after (key s : string) : option string :=
  if String.prefix key s
  then Some (String.substring (String.length key) (String.length s - String.length key) s)
  else match s with
       | EmptyString => None
       | String _ rest => find_after key rest
       end.

Definition field (key doc : string) : option string :=
  match find_after (key ++ ":") doc with
  | Some rest => Some (fst (split_word (skip_spaces rest)))
  | None => None
  end.

(** Method descriptors, for the primitive types above: [I] is [int], [J] is
    [long], [V] is [void]. *)
Definition of_descriptor_char (c : ascii) : option jtype :=
  if Ascii.eqb c "I" then Some JInt
  else if Ascii.eqb c "J" then Some JLong
  else if Ascii.eqb c "V" then Some JVoid
  else None.

Fixpoint descriptor_args (s : string) : option (list jtype * string) :=
  match s with
  | EmptyString => None
  | String c rest =>
      if Ascii.eqb c ")" then Some ([], rest)
      else match of_descriptor_char c, descriptor_args rest with
           | Some t, Some (ts, r) => Some (t :: ts, r)
           | _, _ => None
           end
  end.

Definition parse_descriptor (s : string) : option (list jtype * jtype) :=
  match s with
  | String "("%char rest =>
      match descriptor_args rest with
      | Some (args, String r EmptyString) =>
          option_map (pair args) (of_descriptor_char r)
      | _ => None
      end
  | _ => None
  end.

(** Symbol names: [Java_], the class name with its separators already
    turned into underscores, an underscore, and the method name with each of
    its own underscores escaped as [_1]. *)
Fixpoint escape (s : string) : string :=
  match s with
  | EmptyString => EmptyString
  | String c rest =>
      if Ascii.eqb c "_" then String "_" (String "1" (escape rest))
      else String c (escape rest)
  end.

Definition native_name (class method : string) : string :=
  "Java_" ++ class ++ "_" ++ escape method.

(** The comment in front of a prototype agrees with it: the symbol is the
    one of the named class and method, and the descriptor gives the
    prototype's argument and result types. *)
Definition doc_agrees (e : entry) : bool :=
  match entry_doc e with
  | None => false
  | Some doc =>
      match field "Class" doc, field "Method" doc, field "Signature" doc with
      | Some c, Some m, Some d =>
          String.eqb (proto_name (entry_proto e)) (native_name c m)
          && match parse_descriptor d, signature_of (entry_proto e) with
             | Some (args, r), Some sg =>
                 (length args =? length (sig_args sg))%nat
                 && forallb (fun '(a, b) => jtype_eqb a b) (combine args (sig_args sg))
                 && jtype_eqb r (sig_ret sg)
             | _, _ => false
             end
      | _, _, _ => false
      end
  end.

End JNI.

(** ** The CLFFT binding *)

Module CLFFT.
Import Parser Cpp Unit JNI.

Definition class_name : string := "ffx_numerics_fft_CLFFT".

(** The native methods of the class, by the names the header's comments
    give them. *)
Inductive operation : Type :=
| do_clfftSetup
| do_clfftCreateDefaultPlan
| do_clfftSetPlanPrecision
| do_clfftSetLayout
| do_clfftExecuteTransform
| do_clfftDestroyPlan.

Definition operations : list operation :=
  [ do_clfftSetup; do_clfftCreateDefaultPlan; do_clfftSetPlanPrecision
  ; do_clfftSetLayout; do_clfftExecuteTransform; do_clfftDestroyPlan ].

Definition method (op : operation) : string :=
  match op with
  | do_clfftSetup => "do_clfftSetup"
  | do_clfftCreateDefaultPlan => "do_clfftCreateDefaultPlan"
  | do_clfftSetPlanPrecision => "do_clfftSetPlanPrecision"
  | do_clfftSetLayout => "do_clfftSetLayout"
  | do_clfftExecuteTransform => "do_clfftExecuteTransform"
  | do_clfftDestroyPlan => "do_clfftDestroyPlan"
  end.

Definition symbol (op : operation) : string := native_name class_name (method op).

(** What the header declares when it is compiled in the given language. *)
Definition declared (lang : language) : list entry :=
  entries_or_nil (compile lang Source.header_text).

Definition names (es : list entry) : list string :=
  map (fun e => proto_name (entry_proto e)) es.

Definition lookup (lang : language) (op : operation) : option entry :=
  find (fun e => proto_name (entry_proto e) =? symbol op) (declared lang).

Definition signature_for (lang : language) (op : operation) : option signature :=
  match lookup lang op with
  | Some e => signature_of (entry_proto e)
  | None => None
  end.

End CLFFT.

(** ** The interface table of the specification

    The header names no parameter.  The roles below are the ones the
    specification's table of external interfaces gives to the inputs and the
    output of each operation, in the table's order; they are set against the
    declared types, which come from the header alone. *)

Module Table.
Import JNI CLFFT.

Inductive role : Type :=
| ContextHandle | DimensionHandle | PlanHandle | QueueHandle
| InputBufferHandle | OutputBufferHandle
| PrecisionCode | InputLayoutCode | OutputLayoutCode | DirectionCode | StatusCode
| Rank | DimensionSize.

Inductive kind : Type := Handle | Code | Number.

Definition kind_of (r : role) : kind :=
  match r with
  | ContextHandle | DimensionHandle | PlanHandle | QueueHandle
  | InputBufferHandle | OutputBufferHandle => Handle
  | PrecisionCode | InputLayoutCode | OutputLayoutCode | DirectionCode
  | StatusCode => Code
  | Rank | DimensionSize => Number
  end.

Definition role_eqb (a b : role) : bool :=
  match a, b with
  | ContextHandle, ContextHandle | DimensionHandle, DimensionHandle
  | PlanHandle, PlanHandle | QueueHandle, QueueHandle
  | InputBufferHandle, InputBufferHandle | OutputBufferHandle, OutputBufferHandle
  | PrecisionCode, PrecisionCode | InputLayoutCode, InputLayoutCode
  | OutputLayoutCode, OutputLayoutCode | DirectionCode, DirectionCode
  | StatusCode, StatusCode | Rank, Rank | DimensionSize, DimensionSize => true
  | _, _ => false
  end.

(** An entry of the Inputs column: one value, or a plural ("dimension
    sizes") that stands for one or more consecutive values.  The rows of the
    table are, in the order of [operations]: setup, create default plan,
    set plan precision, set layout, execute transform, destroy plan. *)
Inductive slot : Type := One (r : role) | Several (r : role).

Definition inputs (op : operation) : list slot :=
  match op with
  | do_clfftSetup => []
  | do_clfftCreateDefaultPlan =>
      [One ContextHandle; One DimensionHandle; One Rank; Several DimensionSize]
  | do_clfftSetPlanPrecision => [One PlanHandle; One PrecisionCode]
  | do_clfftSetLayout => [One PlanHandle; One InputLayoutCode; One OutputLayoutCode]
  | do_clfftExecuteTransform =>
      [One PlanHandle; One DirectionCode; One QueueHandle;
       One InputBufferHandle; One OutputBufferHandle]
  | do_clfftDestroyPlan => [One PlanHandle]
  end.

Definition output (op : operation) : role :=
  match op with
  | do_clfftSetup => ContextHandle
  | do_clfftCreateDefaultPlan => PlanHandle
  | do_clfftSetPlanPrecision | do_clfftSetLayout
  | do_clfftExecuteTransform | do_clfftDestroyPlan => StatusCode
  end.

(** The roles laid over a declared argument list, left to right.  A plural
    takes every argument the entries after it leave over, and at least one. *)
Fixpoint assign (slots : list slot) (tys : list jtype) : option (list (role * jtype)) :=
  match slots with
  | [] => match tys with [] => Some [] | _ :: _ => None end
  | One r :: ss =>
      match tys with
      | t :: ts => option_map (cons (r, t)) (assign ss ts)
      | [] => None
      end
  | Several r :: ss =>
      match length tys - length ss with
      | O => None
      | S k =>
          option_map (app (map (pair r) (firstn (S k) tys)))
                     (assign ss (skipn (S k) tys))
      end
  end.

Definition typed_inputs (lang : Cpp.language) (op : operation)
  : option (list (role * jtype)) :=
  match signature_for lang op with
  | Some sg => assign (inputs op) (sig_args sg)
  | None => None
  end.

Definition typed_output (lang : Cpp.language) (op : operation)
  : option (role * jtype) :=
  option_map (fun sg => (output op, sig_ret sg)) (signature_for lang op).

(** How a role is carried: a handle as a 64-bit [jlong], a code as a 32-bit
    [jint]. *)
Definition carried_as (r : role) (t : jtype) : Prop :=
  match kind_of r with
  | Handle => t = JLong /\ bits t = Some 64
  | Code => t = JInt /\ bits t = Some 32
  | Number => True
  end.

(** Positions, counted from [i], of the arguments that have role [r]. *)
Fixpoint positions (r : role) (i : nat) (l : list (role * jtype)) : list nat :=
  match l with
  | [] => []
  | (r', _) :: rest =>
      if role_eqb r r' then i :: positions r (S i) rest
      else positions r (S i) rest
  end.

Definition size_positions (lang : Cpp.language) : list nat :=
  match typed_inputs lang do_clfftCreateDefaultPlan with
  | Some l => positions DimensionSize 0 l
  | None => []
  end.

(** A transform of rank [r] has one size per dimension.  [place] puts the
    size of dimension [i] in an argument position: every dimension lands in
    one of [slots], and no two share a position. *)
Definition carries (slots : list nat) (r : nat) (place : nat -> nat) : Prop :=
  (forall i, i < r -> In (place i) slots) /\
  (forall i j, i < r -> j < r -> place i = place j -> i = j).

End Table.

(** ** Including the header

    What a file that includes the header sees depends on the macros defined
    at that point: the guard macro of lines 5, 6 and 61, and [__cplusplus]. *)

Module Inclusion.
Import Parser Cpp Unit.

Definition guard : string := "_Included_ffx_numerics_fft_CLFFT".

(** The header as the parser reads it. *)
Definition header_items : list item :=
  Eval vm_compute in
    match read Source.header_text with Some items => items | None => [] end.

(** [__cplusplus] is defined exactly by a C++ compiler. *)
Definition is_cxx (lang : language) : bool :=
  match lang with LangC => false | LangCxx => true end.

(** A file that includes the header [n] times in a row: each [#include]
    splices the header in. *)
Definition included (n : nat) : list item := concat (repeat header_items n).

Definition compile_items (lang : language) (items : list item) : option (list entry) :=
  match preprocess (predefined lang) [] items with
  | Some (live, _) => declare lang 0 None live
  | None => None
  end.

(** What is left of the header when it is read first, with [__cplusplus]
    defined or not, and when it is read again. *)
Definition live_first (cxx : bool) : list item :=
  match preprocess (if cxx then ["__cplusplus"] else []) [] header_items with
  | Some (live, _) => live
  | None => []
  end.

Definition live_again : list item :=
  match preprocess [guard] [] header_items with
  | Some (live, _) => live
  | None => []
  end.

Definition is_comment (i : item) : bool :=
  match i with IComment _ => true | _ => false end.

End Inclusion.

(** ** Properties *)

Import Parser Cpp Unit JNI CLFFT Table.

(** *** General facts about the readers *)

(** Laying roles over an argument list keeps the declared types as they
    are, in order. *)
Lemma assign_types (slots : list slot) :
  forall tys l, assign slots tys = Some l -> map snd l = tys.
Proof.
  induction slots as [| [r | r] ss IH]; intros tys l H; cbn [assign] in H.
  - destruct tys; [injection H as <-; reflexivity | discriminate].
  - destruct tys as [| t ts]; [discriminate |].
    destruct (assign ss ts) as [l' |] eqn:E; [| discriminate].
    injection H as <-. simpl. f_equal. now apply IH.
  - destruct (length tys - length ss) as [| k]; [discriminate |].
    destruct (assign ss (skipn (S k) tys)) as [l' |] eqn:E; [| discriminate].
    cbn [option_map] in H. injection H as <-.
    rewrite map_app, map_map, map_id, (IH _ _ E).
    exact (firstn_skipn (S k) tys).
Qed.

(** Compiled as C, every function has C linkage, whatever the file. *)
Lemma declare_C_linkage (items : list item) :
  forall depth doc es,
    declare LangC depth doc items = Some es ->
    Forall (fun e => entry_linkage e = CLinkage) es.
Proof.
  induction items as [| i rest IH]; intros depth doc es H; simpl in H.
  - destruct depth; [injection H as <-; constructor | discriminate].
  - destruct i as [c | d | | | p | p body]; try discriminate.
    + eapply IH; eassumption.
    + eapply IH; eassumption.
    + destruct depth; [discriminate | eapply IH; eassumption].
    + destruct (declare LangC depth None rest) eqn:E; [| discriminate].
      injection H as <-. constructor; [reflexivity | eapply IH; eassumption].
    + destruct (declare LangC depth None rest) eqn:E; [| discriminate].
      injection H as <-. constructor; [reflexivity | eapply IH; eassumption].
Qed.

(** An entry has a body exactly when the parser read a definition. *)
Lemma declare_bodies (lang : language) (items : list item) :
  forall depth doc es,
    declare lang depth doc items = Some es ->
    definitions items = [] ->
    Forall (fun e => entry_body e = None) es.
Proof.
  induction items as [| i rest IH]; intros depth doc es H D; simpl in H.
  - destruct depth; [injection H as <-; constructor | discriminate].
  - destruct i as [c | d | | | p | p body]; simpl in D; try discriminate.
    + eapply IH; eassumption.
    + eapply IH; eassumption.
    + destruct lang; [discriminate | eapply IH; eassumption].
    + destruct depth; [discriminate | eapply IH; eassumption].
    + destruct (declare lang depth None rest) eqn:E; [| discriminate].
      injection H as <-. constructor; [reflexivity | eapply IH; eassumption].
Qed.

(** Pigeonhole: dimensions placed one per position need at least as many
    positions as there are dimensions. *)
Lemma carries_bound (slots : list nat) (r : nat) (place : nat -> nat) :
  carries slots r place -> r <= length slots.
Proof.
  intros [Hin Hinj].
  rewrite <- (length_seq r 0), <- (length_map place).
  apply NoDup_incl_length.
  - apply NoDup_map_NoDup_ForallPairs; [| apply seq_NoDup].
    intros i j Hi Hj. apply in_seq in Hi, Hj. apply Hinj; lia.
  - intros p Hp. apply in_map_iff in Hp as [i [<- Hi]].
    apply in_seq in Hi. apply Hin. lia.
Qed.

(** *** The header as read *)

Lemma header_is_read : exists items,
  read Source.header_text = Some items /\
  length (declarations items) = 6 /\ definitions items = [].
Proof. eexists. split; [vm_compute; reflexivity | split; reflexivity]. Qed.

Lemma header_compiles (lang : language) :
  compile lang Source.header_text = Some (declared lang).
Proof. destruct lang; vm_compute; reflexivity. Qed.

(** C and C++ see the same declarations, linkage included. *)
Lemma declared_same : declared LangC = declared LangCxx.
Proof. vm_compute. reflexivity. Qed.

(** The include guard: read again with the guard macro defined, the file
    declares nothing. *)
Lemma include_guard (lang : language) : exists items live macros again,
  read Source.header_text = Some items /\
  preprocess (predefined lang) [] items = Some (live, macros) /\
  preprocess macros [] items = Some (again, macros) /\
  declare lang 0 None again = Some [].
Proof.
  destruct lang; do 4 eexists;
    (split; [vm_compute; reflexivity |
     split; [vm_compute; reflexivity |
     split; [vm_compute; reflexivity | vm_compute; reflexivity]]]).
Qed.

(** Each generated comment agrees with the prototype under it. *)
Lemma docs_agree (lang : language) : forallb doc_agrees (declared lang) = true.
Proof. destruct lang; vm_compute; reflexivity. Qed.

(** The readers tell the cases apart: a body makes a definition, a
    prototype outside a linkage block has C++ linkage in C++, and an
    instance method would show [jobject]. *)
Example body_is_seen :
  option_map definitions
    (read "JNIEXPORT jint JNICALL f (JNIEnv *, jclass) { return 0; }")
  = Some [ {| proto_ret := "jint"; proto_name := "f";
              proto_params := [ {| param_type := "JNIEnv"; param_stars := 1 |}
                              ; {| param_type := "jclass"; param_stars := 0 |} ] |} ].
Proof. vm_compute. reflexivity. Qed.

Example bare_prototype_linkage :
  option_map (map entry_linkage)
    (compile LangCxx "JNIEXPORT jint JNICALL f (JNIEnv *, jclass);")
  = Some [CxxLinkage].
Proof. vm_compute. reflexivity. Qed.

Example instance_method_is_seen :
  option_map (map (fun e => option_map sig_self (signature_of (entry_proto e))))
    (compile LangC "JNIEXPORT void JNICALL g (JNIEnv *, jobject, jlong);")
  = Some [Some JObject].
Proof. vm_compute. reflexivity. Qed.

(** *** The declared interface *)

Ltac try_operations :=
  first [ exists do_clfftSetup; vm_compute; reflexivity
        | exists do_clfftCreateDefaultPlan; vm_compute; reflexivity
        | exists do_clfftSetPlanPrecision; vm_compute; reflexivity
        | exists do_clfftSetLayout; vm_compute; reflexivity
        | exists do_clfftExecuteTransform; vm_compute; reflexivity
        | exists do_clfftDestroyPlan; vm_compute; reflexivity ].

(** Every declared entry is the one found under the symbol of some
    operation. *)
Lemma declared_cover (lang : language) (e : entry) :
  In e (declared lang) -> exists op, lookup lang op = Some e.
Proof.
  intros He. destruct lang; vm_compute in He;
    repeat (destruct He as [<- | He]; [try_operations |]); contradiction.
Qed.

(** C1: the header declares exactly six entry points, one for each of
    setup, create default plan, set plan precision, set layout, execute
    transform and destroy plan, under the symbols of those methods of
    the class, and it declares nothing else. *)
Theorem six_entry_points (lang : language) :
  length (declared lang) = 6 /\
  names (declared lang) = map symbol operations /\
  NoDup (map symbol operations) /\
  (forall op, In op operations) /\
  (forall op, exists e,
      lookup lang op = Some e /\
      option_map (field "Method") (entry_doc e) = Some (Some (method op))).
Proof.
  split; [destruct lang; vm_compute; reflexivity |].
  split; [destruct lang; vm_compute; reflexivity |].
  split.
  - vm_compute. repeat constructor; simpl; intuition discriminate.
  - split.
    + intros []; simpl; tauto.
    + intros op. destruct lang, op; eexists; split; vm_compute; reflexivity.
Qed.

(** C2: in every declared entry point, each handle of the interface table
    (context, dimension, plan, queue, buffers), argument or result, is a
    64-bit [jlong], and each option or status code (precision, layout,
    direction, status) is a 32-bit [jint]. *)
Theorem handles_long_codes_int (lang : language) :
  Forall (fun e => exists op sg ins,
            proto_name (entry_proto e) = symbol op /\
            signature_of (entry_proto e) = Some sg /\
            assign (inputs op) (sig_args sg) = Some ins /\
            Forall (fun rt => carried_as (fst rt) (snd rt))
                   ((output op, sig_ret sg) :: ins))
         (declared lang).
Proof.
  assert (each : forall op, exists e sg ins,
             lookup lang op = Some e /\
             proto_name (entry_proto e) = symbol op /\
             signature_of (entry_proto e) = Some sg /\
             assign (inputs op) (sig_args sg) = Some ins /\
             Forall (fun rt => carried_as (fst rt) (snd rt))
                    ((output op, sig_ret sg) :: ins)).
  { intros op. destruct lang, op; do 3 eexists;
      (split; [vm_compute; reflexivity |]);
      (split; [vm_compute; reflexivity |]);
      (split; [vm_compute; reflexivity |]);
      (split; [vm_compute; reflexivity |]);
      repeat constructor. }
  apply Forall_forall. intros e He.
  destruct (declared_cover lang e He) as [op Hop].
  destruct (each op) as [e' [sg [ins [Hl H]]]].
  rewrite Hl in Hop. injection Hop as ->.
  exists op, sg, ins. exact H.
Qed.

Ltac read_off lang :=
  destruct lang; eexists; (split; [vm_compute; reflexivity |]);
  repeat split; vm_compute; reflexivity.

(** C3: create default plan takes a context handle, a dimension handle, a
    rank and dimension sizes and returns a plan handle; as declared, that is
    two 64-bit [jlong] arguments followed by four 32-bit [jint] arguments,
    and a 64-bit [jlong] result. *)
Theorem create_default_plan_signature (lang : language) :
  exists sg,
    signature_for lang do_clfftCreateDefaultPlan = Some sg /\
    sig_args sg = [JLong; JLong; JInt; JInt; JInt; JInt] /\
    map bits (sig_args sg) = [Some 64; Some 64; Some 32; Some 32; Some 32; Some 32] /\
    sig_ret sg = JLong /\ bits (sig_ret sg) = Some 64 /\
    typed_inputs lang do_clfftCreateDefaultPlan =
      Some [(ContextHandle, JLong); (DimensionHandle, JLong); (Rank, JInt);
            (DimensionSize, JInt); (DimensionSize, JInt); (DimensionSize, JInt)] /\
    typed_output lang do_clfftCreateDefaultPlan = Some (PlanHandle, JLong).
Proof. read_off lang. Qed.

(** C4: execute transform takes exactly five inputs, in order plan handle,
    direction code, queue handle, input buffer handle, output buffer handle;
    the handles are 64-bit [jlong], the direction is a 32-bit [jint], and
    the result is a 32-bit status code. *)
Theorem execute_transform_signature (lang : language) :
  exists sg,
    signature_for lang do_clfftExecuteTransform = Some sg /\
    length (sig_args sg) = 5 /\
    typed_inputs lang do_clfftExecuteTransform =
      Some [(PlanHandle, JLong); (DirectionCode, JInt); (QueueHandle, JLong);
            (InputBufferHandle, JLong); (OutputBufferHandle, JLong)] /\
    map bits (sig_args sg) = [Some 64; Some 32; Some 64; Some 64; Some 64] /\
    typed_output lang do_clfftExecuteTransform = Some (StatusCode, JInt) /\
    bits (sig_ret sg) = Some 32.
Proof. read_off lang. Qed.

(** C5: setup takes no argument besides the JNI environment and the class,
    and returns a context handle as a 64-bit [jlong]. *)
Theorem setup_signature (lang : language) :
  exists sg,
    signature_for lang do_clfftSetup = Some sg /\
    sig_env sg = JEnvPtr /\ sig_self sg = JClass /\
    sig_args sg = [] /\
    typed_inputs lang do_clfftSetup = Some [] /\
    typed_output lang do_clfftSetup = Some (ContextHandle, JLong) /\
    bits (sig_ret sg) = Some 64.
Proof. read_off lang. Qed.

(** C6: set plan precision takes a plan handle and a precision code; set
    layout takes a plan handle, an input layout code and an output layout
    code; in both the handle is a [jlong], each code a 32-bit [jint], and
    the result a 32-bit status code. *)
Theorem configuration_signatures (lang : language) :
  exists sp sl,
    (signature_for lang do_clfftSetPlanPrecision = Some sp /\
     signature_for lang do_clfftSetLayout = Some sl) /\
    typed_inputs lang do_clfftSetPlanPrecision =
      Some [(PlanHandle, JLong); (PrecisionCode, JInt)] /\
    typed_inputs lang do_clfftSetLayout =
      Some [(PlanHandle, JLong); (InputLayoutCode, JInt); (OutputLayoutCode, JInt)] /\
    map bits (sig_args sp) = [Some 64; Some 32] /\
    map bits (sig_args sl) = [Some 64; Some 32; Some 32] /\
    typed_output lang do_clfftSetPlanPrecision = Some (StatusCode, JInt) /\
    typed_output lang do_clfftSetLayout = Some (StatusCode, JInt) /\
    bits (sig_ret sp) = Some 32 /\ bits (sig_ret sl) = Some 32.
Proof.
  destruct lang; do 2 eexists;
    (split; [split; vm_compute; reflexivity |]);
    repeat split; vm_compute; reflexivity.
Qed.

(** C7: destroy plan takes exactly one input, a plan handle as a 64-bit
    [jlong], and returns a 32-bit status code. *)
Theorem destroy_plan_signature (lang : language) :
  exists sg,
    signature_for lang do_clfftDestroyPlan = Some sg /\
    typed_inputs lang do_clfftDestroyPlan = Some [(PlanHandle, JLong)] /\
    map bits (sig_args sg) = [Some 64] /\
    typed_output lang do_clfftDestroyPlan = Some (StatusCode, JInt) /\
    bits (sig_ret sg) = Some 32.
Proof. read_off lang. Qed.

(** C8: the header has no executable content: nothing the parser reads is a
    function definition, and each of the six declared entry points is a
    prototype without a body, so what it does is given elsewhere. *)
Theorem no_definitions (lang : language) :
  (exists items,
      read Source.header_text = Some items /\
      definitions items = [] /\ length (declarations items) = 6) /\
  length (declared lang) = 6 /\
  Forall (fun e => entry_body e = None) (declared lang).
Proof.
  split; [| split].
  - eexists. split; [vm_compute; reflexivity | split; reflexivity].
  - destruct lang; vm_compute; reflexivity.
  - destruct lang; vm_compute; repeat constructor.
Qed.

(** C9: after its two [jlong] handles create default plan has exactly four
    [jint] parameters, a rank and three dimension sizes; a transform of
    rank above three, needing one size parameter per dimension, cannot be
    passed. *)
Theorem at_most_three_dimensions (lang : language) :
  (exists sg,
      signature_for lang do_clfftCreateDefaultPlan = Some sg /\
      sig_args sg = ([JLong; JLong] ++ [JInt; JInt; JInt; JInt])%list) /\
  option_map (map fst) (typed_inputs lang do_clfftCreateDefaultPlan) =
    Some [ContextHandle; DimensionHandle; Rank;
          DimensionSize; DimensionSize; DimensionSize] /\
  length (size_positions lang) = 3 /\
  (forall r, 3 < r -> ~ exists place, carries (size_positions lang) r place).
Proof.
  assert (L : length (size_positions lang) = 3)
    by (destruct lang; vm_compute; reflexivity).
  split; [| split; [| split]].
  - destruct lang; eexists; split; vm_compute; reflexivity.
  - destruct lang; vm_compute; reflexivity.
  - exact L.
  - intros r Hr [place Hc]. apply carries_bound in Hc. lia.
Qed.

(** The witness and its converse: rank four does not fit, rank three does. *)
Lemma at_most_three_dimensions_witness :
  3 < 4 /\ ~ exists place, carries (size_positions LangC) 4 place.
Proof.
  split; [lia |].
  apply (proj2 (proj2 (proj2 (at_most_three_dimensions LangC)))). lia.
Defined.

Lemma rank_three_fits (lang : language) :
  carries (size_positions lang) 3 (fun i => 3 + i).
Proof.
  assert (E : size_positions lang = [3; 4; 5])
    by (destruct lang; vm_compute; reflexivity).
  rewrite E. split.
  - intros i Hi. simpl.
    destruct i as [| [| [| i]]]; simpl; auto; lia.
  - intros i j _ _. lia.
Qed.

(** C10: every entry point is the binding of a static method and has C
    linkage: after the environment pointer it receives a [jclass], no
    parameter or result is a [jobject], and all that is passed besides is
    [jlong] and [jint] values. *)
Theorem static_bindings_with_C_linkage (lang : language) :
  length (declared lang) = 6 /\
  Forall (fun e =>
            entry_linkage e = CLinkage /\
            exists sg,
              signature_of (entry_proto e) = Some sg /\
              sig_env sg = JEnvPtr /\ sig_self sg = JClass /\
              ~ In JObject (sig_env sg :: sig_self sg :: sig_ret sg :: sig_args sg) /\
              Forall (fun t => t = JInt \/ t = JLong) (sig_ret sg :: sig_args sg))
         (declared lang).
Proof.
  split; [destruct lang; vm_compute; reflexivity |].
  assert (each : forall op, exists e,
             lookup lang op = Some e /\
             entry_linkage e = CLinkage /\
             exists sg,
               signature_of (entry_proto e) = Some sg /\
               sig_env sg = JEnvPtr /\ sig_self sg = JClass /\
               ~ In JObject (sig_env sg :: sig_self sg :: sig_ret sg :: sig_args sg) /\
               Forall (fun t => t = JInt \/ t = JLong) (sig_ret sg :: sig_args sg)).
  { intros op. destruct lang, op; eexists;
      (split; [vm_compute; reflexivity |]);
      (split; [reflexivity |]); eexists;
      (split; [vm_compute; reflexivity |]);
      (split; [reflexivity |]); (split; [reflexivity |]);
      (split; [simpl; intuition discriminate |]);
      repeat (apply Forall_cons;
              [first [left; reflexivity | right; reflexivity] |]);
      apply Forall_nil. }
  apply Forall_forall. intros e He.
  destruct (declared_cover lang e He) as [op Hop].
  destruct (each op) as [e' [Hl H]].
  rewrite Hl in Hop. injection Hop as ->. exact H.
Qed.

(** *** Including the header: the guard and the language brackets *)

Import Inclusion.

Lemma header_items_read : read Source.header_text = Some header_items.
Proof. vm_compute. reflexivity. Qed.

Lemma defined_after_guard (macros : list string) :
  defined (guard :: macros) "__cplusplus" = defined macros "__cplusplus".
Proof. reflexivity. Qed.

(** The header read with the guard macro not yet defined, in front of
    anything: its live items come out, and the rest is read with the guard
    macro defined. *)
Lemma first_app (macros : list string) (rest : list item) (cxx : bool) :
  defined macros guard = false ->
  defined macros "__cplusplus" = cxx ->
  preprocess macros [] (header_items ++ rest) =
  match preprocess (guard :: macros) [] rest with
  | Some (out, m) => Some ((live_first cxx ++ out)%list, m)
  | None => None
  end.
Proof.
  intros G C. rewrite <- defined_after_guard in C.
  unfold guard in *. unfold header_items.
  cbn [app preprocess].
  rewrite G. cbn [negb active forallb andb]. rewrite C.
  destruct (preprocess _ [] rest) as [[out m] |]; [| reflexivity].
  destruct cxx; reflexivity.
Qed.

(** The header read with the guard macro defined, in front of anything. *)
Lemma again_app (macros : list string) (rest : list item) :
  defined macros guard = true ->
  preprocess macros [] (header_items ++ rest) =
  match preprocess macros [] rest with
  | Some (out, m) => Some ((live_again ++ out)%list, m)
  | None => None
  end.
Proof.
  intros G. unfold guard in *. unfold header_items.
  cbn [app preprocess].
  rewrite G. cbn [negb active forallb andb].
  rewrite !andb_false_r.
  destruct (preprocess _ [] rest) as [[out m] |]; reflexivity.
Qed.

Lemma again_many (macros : list string) (n : nat) :
  defined macros guard = true ->
  preprocess macros [] (included n) = Some (concat (repeat live_again n), macros).
Proof.
  intros G. induction n as [| n IH]; [reflexivity |].
  unfold included in *. cbn [repeat concat].
  rewrite (again_app _ _ G), IH. reflexivity.
Qed.

Lemma comments_only (n : nat) :
  forallb is_comment (concat (repeat live_again n)) = true.
Proof.
  induction n as [| n IH]; [reflexivity |].
  cbn [repeat concat]. rewrite forallb_app, IH. reflexivity.
Qed.

(** Comments after the last declaration change nothing. *)
Lemma declare_comments (lang : language) (tail : list item) :
  forallb is_comment tail = true ->
  forall depth doc, declare lang depth doc tail = declare lang depth None [].
Proof.
  induction tail as [| i tail IH]; intros H depth doc; [reflexivity |].
  cbn [forallb] in H. apply andb_true_iff in H as [Hi Ht].
  destruct i; try discriminate. cbn [declare]. now apply IH.
Qed.

Lemma declare_app_comments (lang : language) (items tail : list item) :
  forallb is_comment tail = true ->
  forall depth doc,
    declare lang depth doc (items ++ tail) = declare lang depth doc items.
Proof.
  intros H. induction items as [| i items IH]; intros depth doc.
  - cbn [app]. now rewrite declare_comments.
  - destruct i as [c | d | | | p | p body]; cbn [app declare]; try apply IH.
    + destruct lang; [reflexivity | apply IH].
    + destruct depth; [reflexivity | apply IH].
    + now rewrite IH.
    + now rewrite IH.
Qed.





(** X3: a file that includes the header any number of times, at least
    once, declares what a single inclusion declares. *)
Theorem repeated_inclusion (lang : language) (n : nat) :
  compile_items lang (included (S n)) = Some (declared lang).
Proof.
  unfold compile_items, included. cbn [repeat concat]. fold (included n).
  assert (G : defined (predefined lang) guard = false) by (destruct lang; reflexivity).
  assert (C : defined (predefined lang) "__cplusplus" = is_cxx lang)
    by (destruct lang; reflexivity).
  rewrite (first_app _ _ _ G C), again_many by reflexivity.
  rewrite declare_app_comments by apply comments_only.
  destruct lang; vm_compute; reflexivity.
Qed.

(** X4: compiled as C the linkage block is gone and the rest is what C++
    sees; compiled as C++ one block encloses all six prototypes; the
    declarations are the same in both. *)
Theorem linkage_block_brackets :
  (exists before inside,
      live_first true = (before ++ [IExternC] ++ inside ++ [IClose])%list /\
      live_first false = (before ++ inside)%list /\
      forallb is_comment before = true /\
      length (declarations inside) = 6 /\
      ~ In IExternC inside /\ ~ In IClose inside) /\
  compile LangC Source.header_text = compile LangCxx Source.header_text /\
  compile LangC Source.header_text <> None.
Proof.
  split; [| split].
  - exists live_again, (skipn 2 (live_first false)).
    split; [vm_compute; reflexivity |].
    repeat split; try reflexivity;
      intros H; vm_compute in H; intuition discriminate.
  - vm_compute. reflexivity.
  - vm_compute. discriminate.
Qed.

(** *** The generated comments and the symbol names *)

Lemma jtype_eqb_eq (a b : jtype) : jtype_eqb a b = true -> a = b.
Proof. destruct a, b; simpl; intros H; (reflexivity || discriminate). Qed.

Lemma combine_eqb_eq (a : list jtype) :
  forall b,
    length a = length b ->
    forallb (fun '(x, y) => jtype_eqb x y) (combine a b) = true ->
    a = b.
Proof.
  induction a as [| x a IH]; intros [| y b] L H; try discriminate; [reflexivity |].
  cbn [combine forallb] in H. apply andb_true_iff in H as [Hx Ha].
  injection L as L. f_equal; [now apply jtype_eqb_eq | now apply IH].
Qed.

(** What the check [doc_agrees] establishes for an entry. *)
Lemma doc_agrees_sound (e : entry) :
  doc_agrees e = true ->
  exists doc c m d sg,
    entry_doc e = Some doc /\
    field "Class" doc = Some c /\ field "Method" doc = Some m /\
    field "Signature" doc = Some d /\
    proto_name (entry_proto e) = native_name c m /\
    signature_of (entry_proto e) = Some sg /\
    parse_descriptor d = Some (sig_args sg, sig_ret sg).
Proof.
  unfold doc_agrees. intros H.
  destruct (entry_doc e) as [doc |] eqn:Ed; [| discriminate].
  destruct (field "Class" doc) as [c |] eqn:Ec; [| discriminate].
  destruct (field "Method" doc) as [m |] eqn:Em; [| discriminate].
  destruct (field "Signature" doc) as [d |] eqn:Es; [| discriminate].
  apply andb_true_iff in H as [Hn H].
  destruct (parse_descriptor d) as [[args r] |] eqn:Ep; [| discriminate].
  destruct (signature_of (entry_proto e)) as [sg |] eqn:Eg; [| discriminate].
  apply andb_true_iff in H as [H Hr]. apply andb_true_iff in H as [Hl Ha].
  apply String.eqb_eq in Hn. apply Nat.eqb_eq in Hl.
  apply jtype_eqb_eq in Hr. apply (combine_eqb_eq _ _ Hl) in Ha.
  exists doc, c, m, d, sg. subst args r. repeat split; assumption || reflexivity.
Qed.

(** X5: every declared entry point stands under a generated comment whose
    Class and Method give its symbol and whose Signature, read as a method
    descriptor, gives exactly the argument and result types of its
    prototype after the two implicit parameters. *)
Theorem comments_match_prototypes (lang : language) :
  Forall (fun e =>
            exists doc c m d sg,
              entry_doc e = Some doc /\
              field "Class" doc = Some c /\ field "Method" doc = Some m /\
              field "Signature" doc = Some d /\
              proto_name (entry_proto e) = native_name c m /\
              signature_of (entry_proto e) = Some sg /\
              parse_descriptor d = Some (sig_args sg, sig_ret sg))
         (declared lang).
Proof.
  apply Forall_forall. intros e He. apply doc_agrees_sound.
  assert (A : forallb doc_agrees (declared lang) = true)
    by (destruct lang; vm_compute; reflexivity).
  exact (proj1 (forallb_forall _ _) A e He).
Qed.




